(** * perplexity-ask: the call-tool handler and the completion client

    A shallow embedding of [src/index.ts]: the JavaScript values the program
    handles (what [JSON.parse] produces, plus [undefined]), the exceptions
    it throws and catches, the one outbound [fetch], the method
    [performChatCompletion], the call-tool request handler and the module's
    top-level statements. *)

From Stdlib Require Import String Ascii List Bool Arith Lia DecimalString.
Import ListNotations.
Local Open Scope string_scope.

(** ** JavaScript values *)

Module JS.

(** A JavaScript number, seen through the two observations the program
    makes on one: its truthiness ([0], [-0] and [NaN] are falsy) and the
    text [String(n)] gives. *)
Record number : Type := mkNumber {
  num_truthy : bool;
  num_text : string
}.

(** Values as [JSON.parse] builds them, and [undefined], which property
    access yields.  An object lists its own fields in insertion order, each
    name once. *)
#[warnings="-register-all"]
Inductive value : Type :=
| Undefined
| Null
| Bool (b : bool)
| Number (n : number)
| Str (s : string)
| Arr (items : list value)
| Obj (fields : list (string * value)).

(** The protocol error codes the program uses. *)
Inductive ErrorCode : Type :=
| MethodNotFound
| InvalidParams
| InternalError.

(** What a [throw] carries: an instance of [Error] (with its [name] and
    [message]), an [McpError] (an [Error] subclass, kept with the code and
    the message given to its constructor), or any other value. *)
Inductive thrown : Type :=
| ErrorObject (name message : string)
| McpError (code : ErrorCode) (message : string)
| OtherValue (v : value).

(** The outcome of an expression that may throw. *)
Inductive result (A : Type) : Type :=
| Ok (a : A)
| Throw (e : thrown).
Arguments Ok {A} a.
Arguments Throw {A} e.

Definition nl : string := String (ascii_of_nat 10) EmptyString.
Definition dquote : string := String (ascii_of_nat 34) EmptyString.

(** [ToBoolean]. *)
Definition truthy (v : value) : bool :=
  match v with
  | Undefined | Null => false
  | Bool b => b
  | Number n => num_truthy n
  | Str s => negb (s =? "")
  | Arr _ | Obj _ => true
  end.

(** [Array.isArray]. *)
Definition isArray (v : value) : bool :=
  match v with
  | Arr _ => true
  | _ => false
  end.

(** [ToString]: what a template literal and [+=] with a string operand
    apply.  An array joins its elements with commas, [null] and
    [undefined] elements giving the empty string; a plain object gives
    [[object Object]]. *)
Fixpoint to_string (v : value) : string :=
  match v with
  | Undefined => "undefined"
  | Null => "null"
  | Bool true => "true"
  | Bool false => "false"
  | Number n => num_text n
  | Str s => s
  | Arr items =>
      let element x :=
        match x with
        | Undefined | Null => ""
        | _ => to_string x
        end in
      (fix join (l : list value) : string :=
         match l with
         | [] => ""
         | x :: rest =>
             match rest with
             | [] => element x
             | _ :: _ => element x ++ "," ++ join rest
             end
         end) items
  | Obj _ => "[object Object]"
  end.

(** Decimal text of an array index or an HTTP status. *)
Definition decimal (n : nat) : string :=
  NilZero.string_of_uint (Nat.to_uint n).

(** [a += s] with [s] a string: string concatenation after [ToString]. *)
Definition add_string (a : value) (s : string) : value :=
  Str (to_string a ++ s).

(** The [TypeError] of a property read on [undefined] or [null] (the
    message is V8's). *)
Definition cannot_read (base : value) (key : string) : thrown :=
  ErrorObject "TypeError"
    ("Cannot read properties of " ++ to_string base
       ++ " (reading '" ++ key ++ "')").

Fixpoint lookup (key : string) (fields : list (string * value)) : value :=
  match fields with
  | [] => Undefined
  | (k, v) :: rest => if k =? key then v else lookup key rest
  end.

(** [base.key] for the identifiers the program reads ([choices],
    [message], [content], [citations], [messages]): none of them is a
    built-in property of an array, a string, a number or a boolean, so
    only an object can hold one. *)
Definition get_field (base : value) (key : string) : result value :=
  match base with
  | Undefined | Null => Throw (cannot_read base key)
  | Obj fields => Ok (lookup key fields)
  | _ => Ok Undefined
  end.

(** [base[0]]: the first element of an array, the first character of a
    string, the field named [0] of an object. *)
Definition get_index0 (base : value) : result value :=
  match base with
  | Undefined | Null => Throw (cannot_read base "0")
  | Arr items => Ok (hd Undefined items)
  | Str s =>
      Ok (match s with
          | EmptyString => Undefined
          | String c _ => Str (String c EmptyString)
          end)
  | Obj fields => Ok (lookup "0" fields)
  | _ => Ok Undefined
  end.

(** The expression [data.choices[0].message.content], read left to right;
    the first read on [undefined] or [null] throws. *)
Definition message_content (data : value) : result value :=
  match get_field data "choices" with
  | Throw e => Throw e
  | Ok choices =>
      match get_index0 choices with
      | Throw e => Throw e
      | Ok choice =>
          match get_field choice "message" with
          | Throw e => Throw e
          | Ok message => get_field message "content"
          end
      end
  end.

(** [e instanceof Error], [e.message] and [String(e)].  The program reads
    the message only of what [performChatCompletion] throws, which is never
    an [McpError]. *)
Definition instanceof_Error (e : thrown) : bool :=
  match e with
  | ErrorObject _ _ | McpError _ _ => true
  | OtherValue _ => false
  end.

Definition error_message (e : thrown) : string :=
  match e with
  | ErrorObject _ m => m
  | McpError _ m => m
  | OtherValue v =>
      match get_field v "message" with
      | Ok m => to_string m
      | Throw _ => ""
      end
  end.

Definition error_to_string (name message : string) : string :=
  if name =? "" then message
  else if message =? "" then name
  else name ++ ": " ++ message.

Definition String_ (e : thrown) : string :=
  match e with
  | ErrorObject n m => error_to_string n m
  | McpError _ m => error_to_string "McpError" m
  | OtherValue v => to_string v
  end.

End JS.
Import JS.

(** ** The outbound HTTP interface *)

Module Http.

(** The text [JSON.stringify] gives for a value, kept as the value that was
    serialised. *)
Inductive json_text : Type :=
| JSON_stringify (v : value).

Record request : Type := mkRequest {
  url : string;
  method : string;
  headers : list (string * string);
  body : json_text
}.

(** A response as the program reads it: [status], [statusText], and how the
    awaited [text()] and [json()] settle. *)
Record response : Type := mkResponse {
  status : nat;
  statusText : string;
  text : result string;
  json : result value
}.

(** [response.ok]: the status is in the range 200-299. *)
Definition ok (r : response) : bool :=
  ((200 <=? status r) && (status r <=? 299))%nat.

End Http.

(** ** The protocol interface *)

Module Mcp.

(** [request.params] of a call-tool request: [arguments] is optional, so it
    may be [undefined]. *)
Record CallToolRequest : Type := mkCallToolRequest {
  name : string;
  arguments : value
}.

Record content_item : Type := mkContentItem {
  type : string;
  text : value
}.

Record CallToolResult : Type := mkCallToolResult {
  content : list content_item;
  isError : bool
}.

End Mcp.

(** ** Effects: the requests sent so far, and exceptions *)

(** The world outside the program: how the network settles a [fetch], given
    the requests already sent and the new one, and the requests sent. *)
Record world : Type := mkWorld {
  network : list Http.request -> Http.request -> result Http.response;
  sent : list Http.request
}.

(** An asynchronous computation: it reads and extends the world and either
    returns or throws; what it sent stays sent when it throws. *)
Definition M (A : Type) : Type := world -> result A * world.

Definition ret {A : Type} (a : A) : M A :=
  fun w => (Ok a, w).

Definition throw {A : Type} (e : thrown) : M A :=
  fun w => (Throw e, w).

Definition bind {A B : Type} (c : M A) (k : A -> M B) : M B :=
  fun w =>
    match c w with
    | (Ok a, w') => k a w'
    | (Throw e, w') => (Throw e, w')
    end.

(** [try { c } catch (error) { handler }]. *)
Definition try_catch {A : Type} (c : M A) (handler : thrown -> M A) : M A :=
  fun w =>
    match c w with
    | (Ok a, w') => (Ok a, w')
    | (Throw e, w') => handler e w'
    end.

Definition lift {A : Type} (r : result A) : M A :=
  fun w => (r, w).

Notation "x <- c1 ;; c2" := (bind c1 (fun x => c2))
  (at level 61, c1 at next level, right associativity).

(** [await fetch(url, init)]: the request goes out, the network settles
    it. *)
Definition fetch (req : Http.request) : M Http.response :=
  fun w =>
    (network w (sent w) req,
     {| network := network w; sent := sent w ++ [req] |}).

(** ** The server *)

(** [process.env.PERPLEXITY_API_KEY] as the module keeps it after startup,
    and the fields of [PerplexityAskServer]. *)
Section PerplexityAskServer.

Variable PERPLEXITY_API_KEY : string.

Definition apiUrl : string := "https://api.perplexity.ai/chat/completions".
Definition model : string := "sonar-pro".

Definition new_Error (message : string) : thrown :=
  ErrorObject "Error" message.

(** [items.forEach((item, index) => ...)] on an array, the callback
    updating one captured variable. *)
Fixpoint forEach {S : Type} (callback : S -> value -> nat -> S)
    (items : list value) (index : nat) (captured : S) : S :=
  match items with
  | [] => captured
  | item :: rest =>
      forEach callback rest (index + 1) (callback captured item index)
  end.

Definition elements (v : value) : list value :=
  match v with
  | Arr items => items
  | _ => []
  end.

Definition performChatCompletion (messages : value) : M value :=
  let url := apiUrl in
  let body := Obj [("model", Str model); ("messages", messages)] in
  response <-
    try_catch
      (fetch {| Http.url := url;
                Http.method := "POST";
                Http.headers :=
                  [("Content-Type", "application/json");
                   ("Authorization", "Bearer " ++ PERPLEXITY_API_KEY)];
                Http.body := Http.JSON_stringify body |})
      (fun error =>
         throw (new_Error ("Network error while calling Perplexity API: "
                             ++ String_ error))) ;;
  if negb (Http.ok response) then
    errorText <-
      try_catch (lift (Http.text response))
        (fun parseError => ret "Unable to parse error response") ;;
    throw (new_Error ("Perplexity API error: "
                        ++ decimal (Http.status response) ++ " "
                        ++ Http.statusText response ++ nl ++ errorText))
  else
    data <-
      try_catch (lift (Http.json response))
        (fun jsonError =>
           throw (new_Error
                    ("Failed to parse JSON response from Perplexity API: "
                       ++ String_ jsonError))) ;;
    messageContent <- lift (message_content data) ;;
    citations <- lift (get_field data "citations") ;;
    if truthy citations && isArray citations
       && (0 <? List.length (elements citations))%nat
    then
      let messageContent :=
        add_string messageContent (nl ++ nl ++ "Citations:" ++ nl) in
      ret (forEach
             (fun messageContent citation index =>
                add_string messageContent
                  ("[" ++ decimal (index + 1) ++ "] "
                     ++ to_string citation ++ nl))
             (elements citations) 0 messageContent)
    else ret messageContent.

Definition invalid_arguments_message : string :=
  "Invalid arguments for perplexity_ask: " ++ dquote ++ "messages" ++ dquote
    ++ " must be an array".

(** The handler registered for [CallToolRequestSchema]. *)
Definition callToolHandler (request : Mcp.CallToolRequest)
    : M Mcp.CallToolResult :=
  if negb (Mcp.name request =? "perplexity_ask") then
    throw (McpError MethodNotFound ("Unknown tool: " ++ Mcp.name request))
  else
    let args := Mcp.arguments request in
    invalid <-
      (if negb (truthy args) then ret true
       else
         messages <- lift (get_field args "messages") ;;
         if negb (truthy messages) then ret true
         else ret (negb (isArray messages))) ;;
    if (invalid : bool) then
      throw (McpError InvalidParams invalid_arguments_message)
    else
      try_catch
        (messages <- lift (get_field args "messages") ;;
         result <- performChatCompletion messages ;;
         ret {| Mcp.content := [{| Mcp.type := "text"; Mcp.text := result |}];
                Mcp.isError := false |})
        (fun error =>
           let errorMessage :=
             if instanceof_Error error then error_message error
             else String_ error in
           throw (McpError InternalError
                    ("Error processing request: " ++ errorMessage))).

End PerplexityAskServer.

(** ** The list of tools *)

Module Listing.

Record Tool : Type := mkTool {
  name : string;
  description : string;
  inputSchema : value
}.

Record ListToolsResult : Type := mkListToolsResult {
  tools : list Tool
}.

End Listing.

(** The handler registered for [ListToolsRequestSchema]. *)
Definition listToolsHandler : M Listing.ListToolsResult :=
  ret {| Listing.tools :=
           [{| Listing.name := "perplexity_ask";
               Listing.description :=
                 "Engages in a conversation using the Perplexity Sonar API. "
                   ++ "Accepts an array of messages (each with a role and content) "
                   ++ "and returns a chat completion response from the Perplexity model.";
               Listing.inputSchema :=
                 Obj [("type", Str "object");
                      ("properties",
                       Obj [("messages",
                             Obj [("type", Str "array");
                                  ("items",
                                   Obj [("type", Str "object");
                                        ("properties",
                                         Obj [("role",
                                               Obj [("type", Str "string");
                                                    ("description",
                                                     Str "Role of the message (e.g., system, user, assistant)")]);
                                              ("content",
                                               Obj [("type", Str "string");
                                                    ("description",
                                                     Str "The content of the message")])]);
                                        ("required",
                                         Arr [Str "role"; Str "content"])]);
                                  ("description",
                                   Str "Array of conversation messages")])]);
                      ("required", Arr [Str "messages"])] |}] |}.

(** ** The top level of the module *)

(** A [console.error] call: a text, or a caught value printed. *)
Inductive diagnostic : Type :=
| Message (s : string)
| Printed (e : thrown).

(** Where evaluating the module leaves the process: stopped by an exception
    nothing caught, or evaluated to its last statement, with what went to
    the diagnostic stream. *)
Inductive process : Type :=
| UncaughtException (e : thrown)
| Evaluated (stderr : list diagnostic).

(** [run()]: [connect] is how [await this.server.connect(transport)]
    settles. *)
Definition run (connect : result unit) (stderr : list diagnostic)
    : result unit * list diagnostic :=
  match connect with
  | Ok _ =>
      (Ok tt,
       (stderr ++ [Message "Perplexity Ask MCP Server running on stdio"])%list)
  | Throw e => (Throw e, stderr)
  end.

(** The statements from the credential check to the last line; [env] is
    [process.env.PERPLEXITY_API_KEY]. *)
Definition main (env : option string) (connect : result unit) : process :=
  let PERPLEXITY_API_KEY :=
    match env with
    | Some s => Str s
    | None => Undefined
    end in
  if negb (truthy PERPLEXITY_API_KEY) then
    UncaughtException
      (ErrorObject "Error" "PERPLEXITY_API_KEY environment variable is required")
  else
    match run connect [] with
    | (Ok _, stderr) => Evaluated stderr
    | (Throw e, stderr) => Evaluated (stderr ++ [Printed e])%list
    end.

(** The exit status the program brings about: an uncaught exception ends a
    Node.js process with status 1; otherwise the program asks for no exit. *)
Definition exit_status (p : process) : option nat :=
  match p with
  | UncaughtException _ => Some 1
  | Evaluated _ => None
  end.

Definition terminates_abnormally (p : process) : bool :=
  match exit_status p with
  | Some code => negb (code =? 0)%nat
  | None => false
  end.

(** ** The vocabulary of the specification *)

(** The request of section 4.2: a POST to the fixed URL, the two headers,
    the body [{model: "sonar-pro", messages}]. *)
Definition chat_request (credential : string) (messages : value)
    : Http.request :=
  {| Http.url := "https://api.perplexity.ai/chat/completions";
     Http.method := "POST";
     Http.headers :=
       [("Content-Type", "application/json");
        ("Authorization", "Bearer " ++ credential)];
     Http.body :=
       Http.JSON_stringify
         (Obj [("model", Str "sonar-pro"); ("messages", messages)]) |}.

(** One line [[i] <citation>] per citation, in order, counting from [i]. *)
Fixpoint numbered_lines (i : nat) (citations : list string) : string :=
  match citations with
  | [] => ""
  | citation :: rest =>
      "[" ++ decimal i ++ "] " ++ citation ++ nl
        ++ numbered_lines (S i) rest
  end.

(** A blank line, the line [Citations:], then the numbered lines. *)
Definition citations_block (citations : list string) : string :=
  nl ++ nl ++ "Citations:" ++ nl ++ numbered_lines 1 citations.

Definition contains (part whole : string) : Prop :=
  exists before after, whole = before ++ part ++ after.

Definition ends_with (suffix whole : string) : Prop :=
  exists before, whole = before ++ suffix.

(** The response body as far as it could be decoded: the text, or the
    placeholder when decoding failed. *)
Definition decoded_body (r : Http.response) : string :=
  match Http.text r with
  | Ok body => body
  | Throw _ => "Unable to parse error response"
  end.

(** A call that ends in a fault no protocol error wraps. *)
Definition uncaught_fault {A : Type} (r : result A) : bool :=
  match r with
  | Ok _ => false
  | Throw (McpError _ _) => false
  | Throw _ => true
  end.

(** The field [choices[0].message.content] is there. *)
Definition has_content (data : value) : bool :=
  match message_content data with
  | Ok Undefined => false
  | Ok _ => true
  | Throw _ => false
  end.

(** A world with nothing sent yet whose network settles every request the
    same way. *)
Definition upstream (settles : result Http.response) : world :=
  {| network := fun _ _ => settles; sent := [] |}.

Definition replies (status : nat) (statusText : string) (data : value)
    : result Http.response :=
  Ok {| Http.status := status;
        Http.statusText := statusText;
        Http.text := Ok "";
        Http.json := Ok data |}.

Definition ping : value :=
  Arr [Obj [("role", Str "user"); ("content", Str "ping")]].

Definition ask (messages : value) : Mcp.CallToolRequest :=
  {| Mcp.name := "perplexity_ask";
     Mcp.arguments := Obj [("messages", messages)] |}.

Definition answer (content : value) (rest : list (string * value)) : value :=
  Obj (("choices", Arr [Obj [("message", Obj [("content", content)])]])
         :: rest).

(** The names a list-tools answer advertises, and the property names a
    JSON schema lists under [required]. *)
Definition listed_names (r : Listing.ListToolsResult) : list string :=
  map Listing.name (Listing.tools r).

Definition required_properties (schema : value) : list value :=
  match get_field schema "required" with
  | Ok required => elements required
  | Throw _ => []
  end.

(** * Properties *)

(** ** Strings and lists *)

Lemma append_assoc (a b c : string) : (a ++ b) ++ c = a ++ b ++ c.
Proof.
  induction a as [|ch a IH]; simpl.
  - reflexivity.
  - now rewrite IH.
Qed.

Lemma contains_middle (before part after : string) :
  contains part (before ++ part ++ after).
Proof. now exists before, after. Qed.

Lemma list_neq_snoc {A : Type} (l : list A) (x : A) : l <> (l ++ [x])%list.
Proof.
  intros H. apply (f_equal (@List.length A)) in H.
  rewrite List.length_app in H. simpl in H. lia.
Qed.

(** ** Property reads *)

(** A faulting read of [choices[0].message.content] throws a [TypeError]. *)
Lemma message_content_fault (data : value) (e : thrown) :
  message_content data = Throw e ->
  exists base key, e = cannot_read base key.
Proof.
  unfold message_content. intros H.
  destruct (get_field data "choices") as [choices|e1] eqn:E1.
  - destruct (get_index0 choices) as [choice|e2] eqn:E2.
    + destruct (get_field choice "message") as [message|e3] eqn:E3.
      * destruct message; simpl in H; try discriminate;
          inversion H; subst; eauto.
      * destruct choice; simpl in E3; try discriminate;
          inversion E3; inversion H; subst; eauto.
    + destruct choices; simpl in E2; try discriminate;
        inversion E2; inversion H; subst; eauto.
  - destruct data; simpl in E1; try discriminate;
      inversion E1; inversion H; subst; eauto.
Qed.

(** When the content read goes through, [data] is neither [undefined] nor
    [null], and reading [data.citations] does not throw. *)
Lemma message_content_citations (data c : value) :
  message_content data = Ok c ->
  exists citations, get_field data "citations" = Ok citations.
Proof.
  unfold message_content.
  destruct data; simpl; try discriminate; eauto.
Qed.

(** ** The completion client *)

Ltac step_M :=
  unfold performChatCompletion, callToolHandler, bind, try_catch, fetch,
    lift, ret, throw; cbv beta zeta; cbn [fst snd].

Ltac settle := cbv beta iota zeta; cbn [fst snd negb]; try reflexivity.

(** Whatever the network does, a call sends the request of section 4.2 once
    and leaves the network as it was. *)
Lemma performChatCompletion_sends (key : string) (messages : value)
    (w : world) :
  snd (performChatCompletion key messages w)
  = {| network := network w;
       sent := (sent w ++ [chat_request key messages])%list |}.
Proof.
  step_M.
  destruct (network w (sent w) _) as [resp|e]; settle.
  destruct (Http.ok resp); settle.
  - destruct (Http.json resp) as [data|e]; settle.
    destruct (message_content data) as [c|e]; settle.
    destruct (get_field data "citations") as [cit|e]; settle.
    destruct (truthy cit && isArray cit && _); settle.
  - destruct (Http.text resp); settle.
Qed.

Lemma append_empty_r (s : string) : s ++ "" = s.
Proof.
  induction s as [|ch s IH]; simpl.
  - reflexivity.
  - now rewrite IH.
Qed.

(** The [forEach] loop appends the numbered lines, one per element, in
    order. *)
Lemma forEach_lines (citations : list value) :
  forall (i : nat) (s : string),
    forEach
      (fun messageContent citation index =>
         add_string messageContent
           ("[" ++ decimal (index + 1) ++ "] " ++ to_string citation ++ nl))
      citations i (Str s)
    = Str (s ++ numbered_lines (S i) (map to_string citations)).
Proof.
  induction citations as [|c rest IH]; intros i s.
  - cbn [forEach map numbered_lines]. now rewrite append_empty_r.
  - cbn [forEach map numbered_lines].
    unfold add_string at 2. cbn [to_string].
    rewrite IH, append_assoc, Nat.add_1_r.
    repeat rewrite append_assoc. reflexivity.
Qed.

(** The outcome of a call on a response with a success status and a body
    that parses. *)
Lemma performChatCompletion_parsed (key : string) (messages : value)
    (w : world) (resp : Http.response) (data : value) :
  network w (sent w) (chat_request key messages) = Ok resp ->
  Http.ok resp = true ->
  Http.json resp = Ok data ->
  fst (performChatCompletion key messages w)
  = match message_content data with
    | Throw e => Throw e
    | Ok c =>
        match get_field data "citations" with
        | Throw e => Throw e
        | Ok (Arr (first :: rest)) =>
            Ok (Str (to_string c
                       ++ citations_block (map to_string (first :: rest))))
        | Ok _ => Ok c
        end
    end.
Proof.
  intros Hnet Hok Hjson. step_M.
  change (network w (sent w) _)
    with (network w (sent w) (chat_request key messages)).
  rewrite Hnet. settle. rewrite Hok. settle. rewrite Hjson. settle.
  destruct (message_content data) as [c|e]; settle.
  destruct (get_field data "citations") as [cit|e]; settle.
  destruct cit as [| |b|n|s|items|fields]; cbn [truthy isArray andb];
    settle.
  - rewrite andb_false_r. settle.
  - rewrite andb_false_r. settle.
  - rewrite andb_false_r. settle.
  - destruct items as [|first rest]; cbn [elements List.length Nat.ltb Nat.leb andb];
      settle.
    unfold add_string at 2. rewrite forEach_lines.
    unfold citations_block. repeat rewrite append_assoc. reflexivity.
Qed.

(** A call on a response with a non-success status throws. *)
Lemma performChatCompletion_refused (key : string) (messages : value)
    (w : world) (resp : Http.response) :
  network w (sent w) (chat_request key messages) = Ok resp ->
  Http.ok resp = false ->
  fst (performChatCompletion key messages w)
  = Throw (new_Error ("Perplexity API error: "
                        ++ decimal (Http.status resp) ++ " "
                        ++ Http.statusText resp ++ nl ++ decoded_body resp)).
Proof.
  intros Hnet Hok. step_M.
  change (network w (sent w) _)
    with (network w (sent w) (chat_request key messages)).
  rewrite Hnet. settle. rewrite Hok. settle.
  unfold decoded_body. destruct (Http.text resp); settle.
Qed.

(** ** The call-tool handler *)

Lemma callToolHandler_unknown (key : string) (request : Mcp.CallToolRequest)
    (w : world) :
  Mcp.name request <> "perplexity_ask" ->
  callToolHandler key request w
  = (Throw (McpError MethodNotFound ("Unknown tool: " ++ Mcp.name request)),
     w).
Proof.
  intros Hname. apply String.eqb_neq in Hname.
  step_M. rewrite Hname. settle.
Qed.

(** With the right name and an array for [messages], the handler's outcome
    is the client's, wrapped. *)
Lemma callToolHandler_valid (key : string) (request : Mcp.CallToolRequest)
    (w : world) (items : list value) :
  Mcp.name request = "perplexity_ask" ->
  get_field (Mcp.arguments request) "messages" = Ok (Arr items) ->
  callToolHandler key request w
  = match performChatCompletion key (Arr items) w with
    | (Ok result, w') =>
        (Ok {| Mcp.content :=
                 [{| Mcp.type := "text"; Mcp.text := result |}];
               Mcp.isError := false |}, w')
    | (Throw error, w') =>
        (Throw (McpError InternalError
                  ("Error processing request: "
                     ++ (if instanceof_Error error then error_message error
                         else String_ error))), w')
    end.
Proof.
  intros Hname Hargs.
  assert (Htruthy : truthy (Mcp.arguments request) = true)
    by (destruct (Mcp.arguments request); simpl in Hargs;
        try discriminate; reflexivity).
  unfold callToolHandler, bind, try_catch, lift, ret, throw.
  cbv beta zeta. rewrite Hname, String.eqb_refl, Htruthy, Hargs.
  cbn [negb truthy isArray].
  destruct (performChatCompletion key (Arr items) w) as [[result|error] w'];
    reflexivity.
Qed.

(** ** Faults on an unexpected response shape *)

(** Claim C1, as amended.  When the response has a success status and a
    body that parses but the read of [choices[0].message.content] faults
    (because [choices], [choices[0]] or [choices[0].message] is [undefined]
    or [null]), the [TypeError] does not escape: the handler's [catch]
    turns it into an [InternalError] protocol error whose message is
    [Error processing request: ] followed by the fault's message, after the
    one request has gone out. *)
Theorem shape_fault_becomes_InternalError (key : string)
    (request : Mcp.CallToolRequest) (w : world) (items : list value)
    (resp : Http.response) (data : value) (e : thrown) :
  Mcp.name request = "perplexity_ask" ->
  get_field (Mcp.arguments request) "messages" = Ok (Arr items) ->
  network w (sent w) (chat_request key (Arr items)) = Ok resp ->
  Http.ok resp = true ->
  Http.json resp = Ok data ->
  message_content data = Throw e ->
  callToolHandler key request w
  = (Throw (McpError InternalError
              ("Error processing request: " ++ error_message e)),
     {| network := network w;
        sent := (sent w ++ [chat_request key (Arr items)])%list |})
  /\ uncaught_fault (fst (callToolHandler key request w)) = false.
Proof.
  intros Hname Hargs Hnet Hok Hjson Hfault.
  assert (Hcall : callToolHandler key request w
            = (Throw (McpError InternalError
                        ("Error processing request: " ++ error_message e)),
               {| network := network w;
                  sent := (sent w ++ [chat_request key (Arr items)])%list |})).
  { rewrite (callToolHandler_valid key request w items Hname Hargs).
    pose proof (performChatCompletion_parsed key (Arr items) w resp data
                  Hnet Hok Hjson) as Hfst.
    pose proof (performChatCompletion_sends key (Arr items) w) as Hsnd.
    rewrite Hfault in Hfst.
    destruct (performChatCompletion key (Arr items) w) as [r w'].
    cbn [fst snd] in Hfst, Hsnd. subst r w'.
    destruct (message_content_fault data e Hfault) as (base & k & ->).
    reflexivity. }
  split; [exact Hcall|]. now rewrite Hcall.
Qed.

(** The body [{}]: a success response without [choices]. *)
Lemma shape_fault_becomes_InternalError_witness :
  fst (callToolHandler "k" (ask ping) (upstream (replies 200 "OK" (Obj []))))
  = Throw (McpError InternalError
             "Error processing request: Cannot read properties of undefined (reading '0')").
Proof.
  exact (f_equal fst
           (proj1 (shape_fault_becomes_InternalError "k" (ask ping)
                     (upstream (replies 200 "OK" (Obj [])))
                     (elements ping)
                     {| Http.status := 200; Http.statusText := "OK";
                        Http.text := Ok ""; Http.json := Ok (Obj []) |}
                     (Obj []) (cannot_read Undefined "0")
                     eq_refl eq_refl eq_refl eq_refl eq_refl eq_refl))).
Defined.

(** Claim C1 as the specification words it fails on the body [{}]: the
    field is missing, and the call ends in an [InternalError] protocol
    error, not in an uncaught fault. *)
Lemma shape_fault_is_caught :
  has_content (Obj []) = false
  /\ fst (callToolHandler "k" (ask ping)
            (upstream (replies 200 "OK" (Obj []))))
     = Throw (McpError InternalError
                "Error processing request: Cannot read properties of undefined (reading '0')")
  /\ uncaught_fault
       (fst (callToolHandler "k" (ask ping)
               (upstream (replies 200 "OK" (Obj []))))) = false.
Proof. repeat split. Qed.

(** When only the last field, [content], is missing, nothing faults: the
    call answers with the text [undefined]. *)
Lemma missing_content_only :
  has_content (Obj [("choices", Arr [Obj [("message", Obj [])]])]) = false
  /\ fst (callToolHandler "k" (ask ping)
            (upstream
               (replies 200 "OK"
                  (Obj [("choices", Arr [Obj [("message", Obj [])]])]))))
     = Ok {| Mcp.content := [{| Mcp.type := "text"; Mcp.text := Undefined |}];
             Mcp.isError := false |}.
Proof. split; reflexivity. Qed.

(** ** Startup and exit *)

(** Claim C2, as amended.  Without the credential (the variable unset or
    empty) the module stops on an uncaught [Error] before a server exists,
    which ends the process with status 1; when the promise of [run()]
    rejects, the rejection is caught and printed on the diagnostic stream,
    and the program asks for no exit. *)
Theorem startup_and_rejected_run :
  (forall (env : option string) (connect : result unit),
      env = None \/ env = Some "" ->
      main env connect
      = UncaughtException
          (ErrorObject "Error"
             "PERPLEXITY_API_KEY environment variable is required")
      /\ terminates_abnormally (main env connect) = true)
  /\ (forall (key : string) (e : thrown),
         key <> "" ->
         main (Some key) (Throw e) = Evaluated [Printed e]
         /\ exit_status (main (Some key) (Throw e)) = None).
Proof.
  split.
  - intros env connect [-> | ->]; split; reflexivity.
  - intros key e Hkey. apply String.eqb_neq in Hkey.
    unfold main. cbn [truthy]. rewrite Hkey. split; reflexivity.
Qed.

Lemma startup_and_rejected_run_witness :
  terminates_abnormally (main None (Ok tt)) = true
  /\ main (Some "k") (Throw (ErrorObject "Error" "closed"))
     = Evaluated [Printed (ErrorObject "Error" "closed")].
Proof.
  split.
  - exact (proj2 (proj1 startup_and_rejected_run None (Ok tt)
                    (or_introl eq_refl))).
  - refine (proj1 (proj2 startup_and_rejected_run "k"
                     (ErrorObject "Error" "closed") _)).
    discriminate.
Defined.

(** Claim C2 as the specification words it fails when [run()] rejects: the
    rejection is printed and the process does not end with a non-zero
    status. *)
Lemma rejected_run_does_not_exit :
  main (Some "k") (Throw (ErrorObject "Error" "closed"))
  = Evaluated [Printed (ErrorObject "Error" "closed")]
  /\ terminates_abnormally
       (main (Some "k") (Throw (ErrorObject "Error" "closed"))) = false.
Proof. split; reflexivity. Qed.

(** ** The outbound request *)

(** Claim C3.  For every [messages], and however the network settles the
    request, a call of [performChatCompletion] adds exactly one request to
    those sent: a POST to [https://api.perplexity.ai/chat/completions] with
    the headers [Content-Type: application/json] and
    [Authorization: Bearer <credential>] and with the body
    [{model: "sonar-pro", messages}]. *)
Theorem performChatCompletion_one_request (key : string) (messages : value)
    (w : world) :
  sent (snd (performChatCompletion key messages w))
  = (sent w
       ++ [{| Http.url := "https://api.perplexity.ai/chat/completions";
              Http.method := "POST";
              Http.headers :=
                [("Content-Type", "application/json");
                 ("Authorization", ("Bearer " ++ key)%string)];
              Http.body :=
                Http.JSON_stringify
                  (Obj [("model", Str "sonar-pro");
                        ("messages", messages)]) |}])%list
  /\ List.length (sent (snd (performChatCompletion key messages w)))
     = S (List.length (sent w)).
Proof.
  rewrite performChatCompletion_sends. cbn [sent]. split.
  - reflexivity.
  - rewrite List.length_app. cbn [List.length]. lia.
Qed.

(** ** Composing the answer *)

(** Claim C4.  On a success response whose body holds the text [base] at
    [choices[0].message.content] and a non-empty array of citations, the
    call returns [base], then a blank line, the line [Citations:], and one
    line [[i] <citation>] per citation, in order, [i] counting from 1. *)
Theorem citations_appended (key : string) (messages : value) (w : world)
    (resp : Http.response) (data : value) (base : string)
    (citations : list string) :
  network w (sent w) (chat_request key messages) = Ok resp ->
  Http.ok resp = true ->
  Http.json resp = Ok data ->
  message_content data = Ok (Str base) ->
  get_field data "citations" = Ok (Arr (map Str citations)) ->
  citations <> [] ->
  fst (performChatCompletion key messages w)
  = Ok (Str (base ++ nl ++ nl ++ "Citations:" ++ nl
               ++ numbered_lines 1 citations))
  /\ ends_with (citations_block citations)
       (base ++ nl ++ nl ++ "Citations:" ++ nl
          ++ numbered_lines 1 citations).
Proof.
  intros Hnet Hok Hjson Hcontent Hcit Hne. split.
  - rewrite (performChatCompletion_parsed key messages w resp data
               Hnet Hok Hjson), Hcontent, Hcit.
    destruct citations as [|first rest]; [contradiction|].
    cbn [map to_string]. rewrite List.map_map. cbn [to_string].
    rewrite List.map_id. reflexivity.
  - exists base. reflexivity.
Qed.

(** The citations [https://a] and [https://b] after the text [pong]. *)
Lemma citations_appended_witness :
  fst (performChatCompletion "k" ping
         (upstream
            (replies 200 "OK"
               (answer (Str "pong")
                  [("citations", Arr [Str "https://a"; Str "https://b"])]))))
  = Ok (Str ("pong" ++ nl ++ nl ++ "Citations:" ++ nl
               ++ "[1] https://a" ++ nl ++ "[2] https://b" ++ nl)).
Proof.
  refine (proj1 (citations_appended "k" ping
                   (upstream
                      (replies 200 "OK"
                         (answer (Str "pong")
                            [("citations",
                              Arr [Str "https://a"; Str "https://b"])])))
                   {| Http.status := 200; Http.statusText := "OK";
                      Http.text := Ok "";
                      Http.json :=
                        Ok (answer (Str "pong")
                              [("citations",
                                Arr [Str "https://a"; Str "https://b"])]) |}
                   (answer (Str "pong")
                      [("citations", Arr [Str "https://a"; Str "https://b"])])
                   "pong" ["https://a"; "https://b"]
                   eq_refl eq_refl eq_refl eq_refl eq_refl _)).
  discriminate.
Defined.

(** Claim C5.  On a success response whose [citations] field is absent or
    an empty array, the call returns exactly the value at
    [choices[0].message.content]. *)
Theorem no_citations_no_block (key : string) (messages : value) (w : world)
    (resp : Http.response) (data base : value) :
  network w (sent w) (chat_request key messages) = Ok resp ->
  Http.ok resp = true ->
  Http.json resp = Ok data ->
  message_content data = Ok base ->
  get_field data "citations" = Ok Undefined
    \/ get_field data "citations" = Ok (Arr []) ->
  fst (performChatCompletion key messages w) = Ok base.
Proof.
  intros Hnet Hok Hjson Hcontent Hcit.
  rewrite (performChatCompletion_parsed key messages w resp data
             Hnet Hok Hjson), Hcontent.
  destruct Hcit as [-> | ->]; reflexivity.
Qed.

Lemma no_citations_no_block_witness :
  fst (performChatCompletion "k" ping
         (upstream (replies 200 "OK" (answer (Str "pong") []))))
  = Ok (Str "pong")
  /\ fst (performChatCompletion "k" ping
            (upstream
               (replies 200 "OK"
                  (answer (Str "pong") [("citations", Arr [])]))))
     = Ok (Str "pong").
Proof.
  split.
  - exact (no_citations_no_block "k" ping
             (upstream (replies 200 "OK" (answer (Str "pong") [])))
             {| Http.status := 200; Http.statusText := "OK";
                Http.text := Ok "";
                Http.json := Ok (answer (Str "pong") []) |}
             (answer (Str "pong") []) (Str "pong")
             eq_refl eq_refl eq_refl eq_refl (or_introl eq_refl)).
  - exact (no_citations_no_block "k" ping
             (upstream
                (replies 200 "OK"
                   (answer (Str "pong") [("citations", Arr [])])))
             {| Http.status := 200; Http.statusText := "OK";
                Http.text := Ok "";
                Http.json :=
                  Ok (answer (Str "pong") [("citations", Arr [])]) |}
             (answer (Str "pong") [("citations", Arr [])]) (Str "pong")
             eq_refl eq_refl eq_refl eq_refl (or_intror eq_refl)).
Defined.

(** ** Dispatch and validation *)

(** Claim C6.  A call-tool request whose name is not [perplexity_ask] fails
    with [MethodNotFound], and the completion client is not invoked: the
    world is left as it was, which no call of [performChatCompletion]
    does. *)
Theorem unknown_tool_MethodNotFound (key : string)
    (request : Mcp.CallToolRequest) (w : world) :
  Mcp.name request <> "perplexity_ask" ->
  callToolHandler key request w
  = (Throw (McpError MethodNotFound ("Unknown tool: " ++ Mcp.name request)),
     w)
  /\ forall messages : value,
       snd (callToolHandler key request w)
       <> snd (performChatCompletion key messages w).
Proof.
  intros Hname.
  rewrite (callToolHandler_unknown key request w Hname). split.
  - reflexivity.
  - intros messages H. rewrite performChatCompletion_sends in H.
    cbn [snd] in H. apply (f_equal sent) in H. cbn [sent] in H.
    exact (list_neq_snoc _ _ H).
Qed.

Lemma unknown_tool_MethodNotFound_witness :
  callToolHandler "k"
    {| Mcp.name := "not_perplexity_ask";
       Mcp.arguments := Obj [("messages", ping)] |}
    (upstream (replies 200 "OK" (answer (Str "pong") [])))
  = (Throw (McpError MethodNotFound "Unknown tool: not_perplexity_ask"),
     upstream (replies 200 "OK" (answer (Str "pong") []))).
Proof.
  refine (proj1 (unknown_tool_MethodNotFound "k"
                   {| Mcp.name := "not_perplexity_ask";
                      Mcp.arguments := Obj [("messages", ping)] |}
                   (upstream (replies 200 "OK" (answer (Str "pong") [])))
                   _)).
  discriminate.
Defined.

(** Claim C7.  A call-tool request named [perplexity_ask] whose arguments
    are missing, or lack [messages], or hold something other than an array
    there, fails with [InvalidParams], and the completion client is not
    invoked. *)
Theorem bad_arguments_InvalidParams (key : string)
    (request : Mcp.CallToolRequest) (w : world) :
  Mcp.name request = "perplexity_ask" ->
  truthy (Mcp.arguments request) = false
    \/ (exists messages : value,
           get_field (Mcp.arguments request) "messages" = Ok messages
           /\ isArray messages = false) ->
  callToolHandler key request w
  = (Throw (McpError InvalidParams
              ("Invalid arguments for perplexity_ask: " ++ dquote
                 ++ "messages" ++ dquote ++ " must be an array")), w)
  /\ forall messages : value,
       snd (callToolHandler key request w)
       <> snd (performChatCompletion key messages w).
Proof.
  intros Hname Hargs.
  assert (Hcall : callToolHandler key request w
            = (Throw (McpError InvalidParams invalid_arguments_message), w)).
  { unfold callToolHandler, bind, try_catch, lift, ret, throw.
    cbv beta zeta. rewrite Hname, String.eqb_refl. cbn [negb].
    destruct (truthy (Mcp.arguments request)) eqn:Htruthy; cbn [negb].
    - destruct Hargs as [Hfalse | (messages & Hget & Harr)];
        [discriminate|].
      rewrite Hget. cbv beta iota. rewrite Harr.
      destruct (truthy messages); reflexivity.
    - reflexivity. }
  rewrite Hcall. split.
  - reflexivity.
  - intros messages H. rewrite performChatCompletion_sends in H.
    cbn [snd] in H. apply (f_equal sent) in H. cbn [sent] in H.
    exact (list_neq_snoc _ _ H).
Qed.

(** The arguments [{}]. *)
Lemma bad_arguments_InvalidParams_witness :
  fst (callToolHandler "k"
         {| Mcp.name := "perplexity_ask"; Mcp.arguments := Obj [] |}
         (upstream (replies 200 "OK" (answer (Str "pong") []))))
  = Throw (McpError InvalidParams invalid_arguments_message).
Proof.
  refine (f_equal fst
            (proj1 (bad_arguments_InvalidParams "k"
                      {| Mcp.name := "perplexity_ask";
                         Mcp.arguments := Obj [] |}
                      (upstream (replies 200 "OK" (answer (Str "pong") [])))
                      eq_refl _))).
  right. exists Undefined. split; reflexivity.
Defined.

(** ** Upstream failures *)

(** Claim C8.  On a response whose status is outside 200-299 the call
    throws an [Error] whose message is [Perplexity API error: ], the
    status in decimal, a space, the status text, a line break and the
    decoded body, the body being [Unable to parse error response] when
    decoding it failed; so the message contains all three. *)
Theorem non_success_status_fails (key : string) (messages : value)
    (w : world) (resp : Http.response) :
  network w (sent w) (chat_request key messages) = Ok resp ->
  Http.status resp < 200 \/ 299 < Http.status resp ->
  exists message : string,
    fst (performChatCompletion key messages w)
    = Throw (ErrorObject "Error" message)
    /\ message
       = "Perplexity API error: " ++ decimal (Http.status resp) ++ " "
           ++ Http.statusText resp ++ nl
           ++ match Http.text resp with
              | Ok body => body
              | Throw _ => "Unable to parse error response"
              end
    /\ contains (decimal (Http.status resp)) message
    /\ contains (Http.statusText resp) message
    /\ contains (decoded_body resp) message.
Proof.
  intros Hnet Hstatus.
  assert (Hok : Http.ok resp = false).
  { unfold Http.ok. apply andb_false_iff.
    destruct Hstatus as [H | H]; [left | right];
      apply Nat.leb_gt; exact H. }
  eexists. split; [|split; [|split; [|split]]].
  - exact (performChatCompletion_refused key messages w resp Hnet Hok).
  - reflexivity.
  - apply contains_middle.
  - exists ("Perplexity API error: " ++ decimal (Http.status resp) ++ " "),
      (nl ++ decoded_body resp).
    now repeat rewrite append_assoc.
  - exists ("Perplexity API error: " ++ decimal (Http.status resp) ++ " "
              ++ Http.statusText resp ++ nl), "".
    rewrite append_empty_r. now repeat rewrite append_assoc.
Qed.

(** A 503 whose body decodes, and a 401 whose body does not. *)
Lemma non_success_status_fails_witness :
  (exists message : string,
      fst (performChatCompletion "k" ping
             (upstream
                (Ok {| Http.status := 503;
                       Http.statusText := "Service Unavailable";
                       Http.text := Ok "overloaded";
                       Http.json := Ok Null |})))
      = Throw (ErrorObject "Error" message)
      /\ message
         = "Perplexity API error: 503 Service Unavailable" ++ nl
             ++ "overloaded")
  /\ (exists message : string,
         fst (performChatCompletion "k" ping
                (upstream
                   (Ok {| Http.status := 401;
                          Http.statusText := "Unauthorized";
                          Http.text := Throw (ErrorObject "TypeError" "terminated");
                          Http.json := Ok Null |})))
         = Throw (ErrorObject "Error" message)
         /\ message
            = "Perplexity API error: 401 Unauthorized" ++ nl
                ++ "Unable to parse error response").
Proof.
  split.
  - destruct (non_success_status_fails "k" ping
                (upstream
                   (Ok {| Http.status := 503;
                          Http.statusText := "Service Unavailable";
                          Http.text := Ok "overloaded";
                          Http.json := Ok Null |}))
                {| Http.status := 503;
                   Http.statusText := "Service Unavailable";
                   Http.text := Ok "overloaded";
                   Http.json := Ok Null |}
                eq_refl (or_intror (proj1 (Nat.leb_le 300 503) eq_refl)))
      as (message & Hthrow & Hmessage & _).
    exists message. split; [exact Hthrow | exact Hmessage].
  - destruct (non_success_status_fails "k" ping
                (upstream
                   (Ok {| Http.status := 401;
                          Http.statusText := "Unauthorized";
                          Http.text := Throw (ErrorObject "TypeError" "terminated");
                          Http.json := Ok Null |}))
                {| Http.status := 401;
                   Http.statusText := "Unauthorized";
                   Http.text := Throw (ErrorObject "TypeError" "terminated");
                   Http.json := Ok Null |}
                eq_refl (or_intror (proj1 (Nat.leb_le 300 401) eq_refl)))
      as (message & Hthrow & Hmessage & _).
    exists message. split; [exact Hthrow | exact Hmessage].
Defined.

(** ** A successful call *)

(** Claim C9.  On a request named [perplexity_ask] whose [messages] is an
    array, when [performChatCompletion] returns, the handler answers with
    exactly one content item, of type [text], holding the returned result,
    and with [isError: false]. *)
Theorem successful_call_wraps_text (key : string)
    (request : Mcp.CallToolRequest) (w w' : world) (items : list value)
    (result : value) :
  Mcp.name request = "perplexity_ask" ->
  get_field (Mcp.arguments request) "messages" = Ok (Arr items) ->
  performChatCompletion key (Arr items) w = (Ok result, w') ->
  callToolHandler key request w
  = (Ok {| Mcp.content := [{| Mcp.type := "text"; Mcp.text := result |}];
           Mcp.isError := false |}, w').
Proof.
  intros Hname Hargs Hclient.
  rewrite (callToolHandler_valid key request w items Hname Hargs), Hclient.
  reflexivity.
Qed.

(** The messages [[{role: "user", content: "ping"}]] against an upstream
    that answers [{choices: [{message: {content: "pong"}}], citations: []}]. *)
Lemma successful_call_wraps_text_witness :
  fst (callToolHandler "k" (ask ping)
         (upstream
            (replies 200 "OK" (answer (Str "pong") [("citations", Arr [])]))))
  = Ok {| Mcp.content := [{| Mcp.type := "text"; Mcp.text := Str "pong" |}];
          Mcp.isError := false |}.
Proof.
  exact (f_equal fst
           (successful_call_wraps_text "k" (ask ping)
              (upstream
                 (replies 200 "OK"
                    (answer (Str "pong") [("citations", Arr [])])))
              (snd (performChatCompletion "k" ping
                      (upstream
                         (replies 200 "OK"
                            (answer (Str "pong") [("citations", Arr [])])))))
              (elements ping) (Str "pong")
              eq_refl eq_refl eq_refl)).
Defined.

(** ** The order of the checks *)

(** Claim C10.  The name is checked before the arguments: a request whose
    name is not [perplexity_ask] fails with [MethodNotFound] whatever its
    arguments are, malformed ones included, and never with
    [InvalidParams]. *)
Theorem name_check_precedes_validation (key : string) (name : string)
    (arguments : value) (w : world) :
  name <> "perplexity_ask" ->
  fst (callToolHandler key
         {| Mcp.name := name; Mcp.arguments := arguments |} w)
  = Throw (McpError MethodNotFound ("Unknown tool: " ++ name))
  /\ forall message : string,
       fst (callToolHandler key
              {| Mcp.name := name; Mcp.arguments := arguments |} w)
       <> Throw (McpError InvalidParams message).
Proof.
  intros Hname.
  rewrite (callToolHandler_unknown key
             {| Mcp.name := name; Mcp.arguments := arguments |} w Hname).
  cbn [fst Mcp.name]. split.
  - reflexivity.
  - intros message H. discriminate H.
Qed.

(** A wrong name together with no arguments at all. *)
Lemma name_check_precedes_validation_witness :
  fst (callToolHandler "k"
         {| Mcp.name := "not_perplexity_ask"; Mcp.arguments := Undefined |}
         (upstream (replies 200 "OK" (answer (Str "pong") []))))
  = Throw (McpError MethodNotFound "Unknown tool: not_perplexity_ask").
Proof.
  refine (proj1 (name_check_precedes_validation "k" "not_perplexity_ask"
                   Undefined
                   (upstream (replies 200 "OK" (answer (Str "pong") [])))
                   _)).
  discriminate.
Defined.

(** * Further properties of the code *)

(** ** More on reads, the client and the handler *)

Lemma get_field_fault (base : value) (key : string) (e : thrown) :
  get_field base key = Throw e -> e = cannot_read base key.
Proof.
  destruct base; simpl; intros H; try discriminate; now inversion H.
Qed.

Lemma truthy_get_field (base : value) (key : string) :
  truthy base = true -> exists v, get_field base key = Ok v.
Proof.
  destruct base; simpl; intros H; try discriminate; eauto.
Qed.

Lemma contains_after (prefix part whole : string) :
  contains part whole -> contains part (prefix ++ whole).
Proof.
  intros (before & after & ->). exists (prefix ++ before), after.
  now rewrite append_assoc.
Qed.

(** The call when [fetch] rejects. *)
Lemma performChatCompletion_unreachable (key : string) (messages : value)
    (w : world) (e : thrown) :
  network w (sent w) (chat_request key messages) = Throw e ->
  fst (performChatCompletion key messages w)
  = Throw (new_Error ("Network error while calling Perplexity API: "
                        ++ String_ e)).
Proof.
  intros Hnet. step_M.
  change (network w (sent w) _)
    with (network w (sent w) (chat_request key messages)).
  rewrite Hnet. settle.
Qed.

(** The call when the body of a success response does not parse. *)
Lemma performChatCompletion_unparsable (key : string) (messages : value)
    (w : world) (resp : Http.response) (e : thrown) :
  network w (sent w) (chat_request key messages) = Ok resp ->
  Http.ok resp = true ->
  Http.json resp = Throw e ->
  fst (performChatCompletion key messages w)
  = Throw (new_Error ("Failed to parse JSON response from Perplexity API: "
                        ++ String_ e)).
Proof.
  intros Hnet Hok Hjson. step_M.
  change (network w (sent w) _)
    with (network w (sent w) (chat_request key messages)).
  rewrite Hnet. settle. rewrite Hok. settle. rewrite Hjson. settle.
Qed.

(** Whatever [performChatCompletion] throws is an instance of [Error]
    carrying a name and a message. *)
Lemma performChatCompletion_throws (key : string) (messages : value)
    (w : world) (e : thrown) :
  fst (performChatCompletion key messages w) = Throw e ->
  exists name message, e = ErrorObject name message.
Proof.
  destruct (network w (sent w) (chat_request key messages))
    as [resp|e0] eqn:Hnet.
  - destruct (Http.ok resp) eqn:Hok.
    + destruct (Http.json resp) as [data|e1] eqn:Hjson.
      * rewrite (performChatCompletion_parsed key messages w resp data
                   Hnet Hok Hjson).
        destruct (message_content data) as [c|e2] eqn:Hc.
        -- destruct (get_field data "citations") as [cit|e3] eqn:Hcit.
           ++ destruct cit as [| | | | |[|first rest]|]; discriminate.
           ++ intros H. inversion H; subst.
              rewrite (get_field_fault _ _ _ Hcit). unfold cannot_read.
              eauto.
        -- intros H. inversion H; subst.
           destruct (message_content_fault data e Hc) as (base & k & ->).
           unfold cannot_read. eauto.
      * rewrite (performChatCompletion_unparsable key messages w resp e1
                   Hnet Hok Hjson).
        intros H. inversion H. unfold new_Error. eauto.
    + rewrite (performChatCompletion_refused key messages w resp Hnet Hok).
      intros H. inversion H. unfold new_Error. eauto.
  - rewrite (performChatCompletion_unreachable key messages w e0 Hnet).
    intros H. inversion H. unfold new_Error. eauto.
Qed.

(** The handler on the right name with arguments that do not hold an
    array under [messages]. *)
Lemma callToolHandler_invalid (key : string) (request : Mcp.CallToolRequest)
    (w : world) :
  Mcp.name request = "perplexity_ask" ->
  (forall items,
      get_field (Mcp.arguments request) "messages" <> Ok (Arr items)) ->
  callToolHandler key request w
  = (Throw (McpError InvalidParams invalid_arguments_message), w).
Proof.
  intros Hname Hargs.
  unfold callToolHandler, bind, try_catch, lift, ret, throw.
  cbv beta zeta. rewrite Hname, String.eqb_refl. cbn [negb].
  destruct (truthy (Mcp.arguments request)) eqn:Htruthy; cbn [negb];
    [|reflexivity].
  destruct (truthy_get_field _ "messages" Htruthy) as (m & Hget).
  rewrite Hget. cbv beta iota.
  destruct (truthy m); cbn [negb]; [|reflexivity].
  destruct m; try reflexivity.
  exfalso. exact (Hargs _ Hget).
Qed.

(** The handler on a valid request when the client throws an [Error]. *)
Lemma callToolHandler_wraps (key : string) (request : Mcp.CallToolRequest)
    (w : world) (items : list value) (name message : string) :
  Mcp.name request = "perplexity_ask" ->
  get_field (Mcp.arguments request) "messages" = Ok (Arr items) ->
  fst (performChatCompletion key (Arr items) w)
  = Throw (ErrorObject name message) ->
  callToolHandler key request w
  = (Throw (McpError InternalError
              ("Error processing request: " ++ message)),
     {| network := network w;
        sent := (sent w ++ [chat_request key (Arr items)])%list |}).
Proof.
  intros Hname Hargs Hthrow.
  rewrite (callToolHandler_valid key request w items Hname Hargs).
  pose proof (performChatCompletion_sends key (Arr items) w) as Hsnd.
  destruct (performChatCompletion key (Arr items) w) as [r w'].
  cbn [fst snd] in Hthrow, Hsnd. subst r w'. reflexivity.
Qed.

(** Every request falls under one of the three branches of the handler. *)
Lemma callToolHandler_cases (key : string) (request : Mcp.CallToolRequest)
    (w : world) :
  (Mcp.name request <> "perplexity_ask"
   /\ callToolHandler key request w
      = (Throw (McpError MethodNotFound
                  ("Unknown tool: " ++ Mcp.name request)), w))
  \/ (Mcp.name request = "perplexity_ask"
      /\ (forall items,
             get_field (Mcp.arguments request) "messages" <> Ok (Arr items))
      /\ callToolHandler key request w
         = (Throw (McpError InvalidParams invalid_arguments_message), w))
  \/ (Mcp.name request = "perplexity_ask"
      /\ exists items,
           get_field (Mcp.arguments request) "messages" = Ok (Arr items)
           /\ ((exists result,
                  callToolHandler key request w
                  = (Ok {| Mcp.content :=
                             [{| Mcp.type := "text"; Mcp.text := result |}];
                           Mcp.isError := false |},
                     {| network := network w;
                        sent := (sent w ++ [chat_request key (Arr items)])%list |})
                  /\ fst (performChatCompletion key (Arr items) w)
                     = Ok result)
              \/ (exists name message,
                     callToolHandler key request w
                     = (Throw (McpError InternalError
                                 ("Error processing request: " ++ message)),
                        {| network := network w;
                           sent := (sent w
                                      ++ [chat_request key (Arr items)])%list |})
                     /\ fst (performChatCompletion key (Arr items) w)
                        = Throw (ErrorObject name message)))).
Proof.
  destruct (String.eqb_spec (Mcp.name request) "perplexity_ask")
    as [Hname|Hname].
  - right.
    destruct (get_field (Mcp.arguments request) "messages") as [m|e] eqn:Hget.
    + destruct m as [| | | | |items|].
      6: { right. split; [exact Hname|]. exists items. split; [reflexivity|].
           destruct (fst (performChatCompletion key (Arr items) w))
             as [result|e] eqn:Hfst.
           - left. exists result. split; [|reflexivity].
             rewrite (callToolHandler_valid key request w items Hname Hget).
             pose proof (performChatCompletion_sends key (Arr items) w) as Hsnd.
             destruct (performChatCompletion key (Arr items) w) as [r w'].
             cbn [fst snd] in Hfst, Hsnd. subst r w'. reflexivity.
           - right.
             destruct (performChatCompletion_throws key (Arr items) w e Hfst)
               as (name & message & ->).
             exists name, message. split; [|reflexivity].
             exact (callToolHandler_wraps key request w items name message
                      Hname Hget Hfst). }
      all: left; split; [exact Hname|]; split;
        [intros items H; discriminate H
        |apply callToolHandler_invalid;
         [exact Hname | intros items H; rewrite Hget in H; discriminate H]].
    + left. split; [exact Hname|]. split.
      * intros items H. discriminate H.
      * apply callToolHandler_invalid; [exact Hname|].
        intros items H. rewrite Hget in H. discriminate H.
  - left. split; [exact Hname|].
    exact (callToolHandler_unknown key request w Hname).
Qed.

(** ** Failures before the body is read *)





(** ** What can be thrown *)

(** Property X3.
    Whatever [performChatCompletion] throws, on any input and any network,
    is an instance of [Error] and not an [McpError]; so the handler's
    [catch] always takes the [error.message] branch. *)
Theorem client_throws_only_errors (key : string) (messages : value)
    (w : world) (e : thrown) :
  fst (performChatCompletion key messages w) = Throw e ->
  instanceof_Error e = true
  /\ forall code message, e <> McpError code message.
Proof.
  intros H.
  destruct (performChatCompletion_throws key messages w e H)
    as (name & message & ->).
  split; [reflexivity|]. intros code m Heq. discriminate Heq.
Qed.

Lemma client_throws_only_errors_witness :
  instanceof_Error
    (ErrorObject "Error"
       ("Network error while calling Perplexity API: " ++ "undefined"))
  = true.
Proof.
  exact (proj1 (client_throws_only_errors "k" ping
                  (upstream (Throw (OtherValue Undefined)))
                  (ErrorObject "Error"
                     ("Network error while calling Perplexity API: "
                        ++ "undefined"))
                  eq_refl)).
Defined.

(** Property X4.
    Whatever the request and the network, the handler rejects only with an
    [McpError]: with [MethodNotFound], with [InvalidParams], or with
    [InternalError] and a message that starts with
    [Error processing request: ]. *)
Theorem handler_rejects_only_with_McpError (key : string)
    (request : Mcp.CallToolRequest) (w : world) (e : thrown) :
  fst (callToolHandler key request w) = Throw e ->
  e = McpError MethodNotFound ("Unknown tool: " ++ Mcp.name request)
  \/ e = McpError InvalidParams invalid_arguments_message
  \/ exists message,
       e = McpError InternalError ("Error processing request: " ++ message).
Proof.
  intros H.
  destruct (callToolHandler_cases key request w)
    as [(_ & Hcall) | [(_ & _ & Hcall) | (_ & items & _ & Hcase)]].
  - rewrite Hcall in H. inversion H. now left.
  - rewrite Hcall in H. inversion H. right. now left.
  - destruct Hcase as [(result & Hcall & _) | (name & message & Hcall & _)];
      rewrite Hcall in H.
    + discriminate H.
    + inversion H. right. right. now exists message.
Qed.

(** The body [null]. *)
Lemma handler_rejects_only_with_McpError_witness :
  exists message,
    McpError InternalError
      "Error processing request: Cannot read properties of null (reading 'choices')"
    = McpError InternalError ("Error processing request: " ++ message).
Proof.
  destruct (handler_rejects_only_with_McpError "k" (ask ping)
              (upstream (replies 200 "OK" Null))
              (McpError InternalError
                 "Error processing request: Cannot read properties of null (reading 'choices')")
              eq_refl) as [H | [H | H]].
  - discriminate H.
  - discriminate H.
  - exact H.
Defined.

(** ** What the error code and the requests sent tell *)

(** Property X5.
    The code of the rejection tells its cause: [MethodNotFound] exactly
    when the name is not [perplexity_ask]; [InvalidParams] exactly when the
    name is right and the arguments hold no array under [messages];
    [InternalError] exactly when the request is valid and
    [performChatCompletion] threw. *)
Theorem error_code_tells_the_cause (key : string)
    (request : Mcp.CallToolRequest) (w : world) :
  ((exists m, fst (callToolHandler key request w)
              = Throw (McpError MethodNotFound m))
   <-> Mcp.name request <> "perplexity_ask")
  /\ ((exists m, fst (callToolHandler key request w)
                 = Throw (McpError InvalidParams m))
      <-> Mcp.name request = "perplexity_ask"
          /\ forall items,
               get_field (Mcp.arguments request) "messages"
               <> Ok (Arr items))
  /\ ((exists m, fst (callToolHandler key request w)
                 = Throw (McpError InternalError m))
      <-> Mcp.name request = "perplexity_ask"
          /\ exists items e,
               get_field (Mcp.arguments request) "messages" = Ok (Arr items)
               /\ fst (performChatCompletion key (Arr items) w) = Throw e).
Proof.
  destruct (callToolHandler_cases key request w)
    as [(Hname & Hcall) | [(Hname & Hargs & Hcall) | (Hname & items & Hargs & Hcase)]].
  - rewrite Hcall. cbn [fst]. split; [|split]; split.
    + intros _. exact Hname.
    + intros _. eauto.
    + intros (m & H). discriminate H.
    + intros (H & _). contradiction.
    + intros (m & H). discriminate H.
    + intros (H & _). contradiction.
  - rewrite Hcall. cbn [fst]. split; [|split]; split.
    + intros (m & H). discriminate H.
    + intros H. contradiction.
    + intros _. split; assumption.
    + intros _. eauto.
    + intros (m & H). discriminate H.
    + intros (_ & items & e & H & _). exfalso. exact (Hargs items H).
  - destruct Hcase as [(result & Hcall & Hfst) | (name & message & Hcall & Hfst)];
      rewrite Hcall; cbn [fst]; (split; [|split]); split.
    + intros (m & H). discriminate H.
    + intros H. contradiction.
    + intros (m & H). discriminate H.
    + intros (_ & H). exfalso. exact (H items Hargs).
    + intros (m & H). discriminate H.
    + intros (_ & items' & e & Hargs' & Hthrow).
      rewrite Hargs in Hargs'. inversion Hargs'; subst items'.
      rewrite Hfst in Hthrow. discriminate Hthrow.
    + intros (m & H). discriminate H.
    + intros H. contradiction.
    + intros (m & H). discriminate H.
    + intros (_ & H). exfalso. exact (H items Hargs).
    + intros _. split; [exact Hname|]. exists items. eauto.
    + intros _. eauto.
Qed.

(** Property X6.
    A call to the handler sends at most one request and leaves the network
    as it was: on the right name with an array under [messages] it sends
    the one request carrying that very array, whatever its elements and
    whatever the outcome; on every other request it sends nothing. *)
Theorem handler_sends_once_iff_valid (key : string)
    (request : Mcp.CallToolRequest) (w : world) :
  network (snd (callToolHandler key request w)) = network w
  /\ ((exists items,
          Mcp.name request = "perplexity_ask"
          /\ get_field (Mcp.arguments request) "messages" = Ok (Arr items)
          /\ sent (snd (callToolHandler key request w))
             = (sent w ++ [chat_request key (Arr items)])%list)
      \/ ((Mcp.name request <> "perplexity_ask"
           \/ forall items,
                get_field (Mcp.arguments request) "messages"
                <> Ok (Arr items))
          /\ sent (snd (callToolHandler key request w)) = sent w)).
Proof.
  destruct (callToolHandler_cases key request w)
    as [(Hname & Hcall) | [(Hname & Hargs & Hcall) | (Hname & items & Hargs & Hcase)]].
  - rewrite Hcall. cbn [snd]. split; [reflexivity|]. right. split; auto.
  - rewrite Hcall. cbn [snd]. split; [reflexivity|]. right. split; auto.
  - destruct Hcase as [(result & Hcall & _) | (name & message & Hcall & _)];
      rewrite Hcall; cbn [snd network sent]; (split; [reflexivity|]);
      left; exists items; auto.
Qed.

(** Property X7.
    Whenever the handler returns, the result is one content item of type
    [text] with [isError: false]; the request was valid, the item holds
    what [performChatCompletion] returned, and one request was sent. *)
Theorem returned_result_shape (key : string)
    (request : Mcp.CallToolRequest) (w w' : world)
    (r : Mcp.CallToolResult) :
  callToolHandler key request w = (Ok r, w') ->
  Mcp.isError r = false
  /\ Mcp.name request = "perplexity_ask"
  /\ exists items result,
       get_field (Mcp.arguments request) "messages" = Ok (Arr items)
       /\ fst (performChatCompletion key (Arr items) w) = Ok result
       /\ Mcp.content r = [{| Mcp.type := "text"; Mcp.text := result |}]
       /\ sent w' = (sent w ++ [chat_request key (Arr items)])%list.
Proof.
  intros H.
  destruct (callToolHandler_cases key request w)
    as [(_ & Hcall) | [(_ & _ & Hcall) | (Hname & items & Hargs & Hcase)]].
  - rewrite Hcall in H. discriminate H.
  - rewrite Hcall in H. discriminate H.
  - destruct Hcase as [(result & Hcall & Hfst) | (name & message & Hcall & _)];
      rewrite Hcall in H.
    + inversion H; subst. split; [reflexivity|]. split; [exact Hname|].
      exists items, result. auto.
    + discriminate H.
Qed.

Lemma returned_result_shape_witness :
  Mcp.isError
    {| Mcp.content := [{| Mcp.type := "text"; Mcp.text := Str "pong" |}];
       Mcp.isError := false |} = false.
Proof.
  exact (proj1 (returned_result_shape "k" (ask ping)
                  (upstream (replies 200 "OK" (answer (Str "pong") [])))
                  (snd (callToolHandler "k" (ask ping)
                          (upstream
                             (replies 200 "OK" (answer (Str "pong") [])))))
                  {| Mcp.content :=
                       [{| Mcp.type := "text"; Mcp.text := Str "pong" |}];
                     Mcp.isError := false |}
                  eq_refl)).
Defined.

(** ** What reaches the caller *)

(** Property X8.
    On a valid call answered with a status outside 200-299, the handler
    rejects with an [InternalError] whose message contains the status code
    in decimal, the status text, and the decoded body (or the
    placeholder). *)
Theorem status_code_reaches_caller (key : string)
    (request : Mcp.CallToolRequest) (w : world) (items : list value)
    (resp : Http.response) :
  Mcp.name request = "perplexity_ask" ->
  get_field (Mcp.arguments request) "messages" = Ok (Arr items) ->
  network w (sent w) (chat_request key (Arr items)) = Ok resp ->
  Http.status resp < 200 \/ 299 < Http.status resp ->
  exists message,
    fst (callToolHandler key request w)
    = Throw (McpError InternalError message)
    /\ contains (decimal (Http.status resp)) message
    /\ contains (Http.statusText resp) message
    /\ contains (decoded_body resp) message.
Proof.
  intros Hname Hargs Hnet Hstatus.
  assert (Hok : Http.ok resp = false).
  { unfold Http.ok. apply andb_false_iff.
    destruct Hstatus as [H | H]; [left | right];
      apply Nat.leb_gt; exact H. }
  pose proof (performChatCompletion_refused key (Arr items) w resp Hnet Hok)
    as Hthrow.
  rewrite (callToolHandler_wraps key request w items "Error" _
             Hname Hargs Hthrow).
  eexists. split; [reflexivity|]. repeat split; apply contains_after.
  - apply contains_middle.
  - exists ("Perplexity API error: " ++ decimal (Http.status resp) ++ " "),
      (nl ++ decoded_body resp).
    now repeat rewrite append_assoc.
  - exists ("Perplexity API error: " ++ decimal (Http.status resp) ++ " "
              ++ Http.statusText resp ++ nl), "".
    rewrite append_empty_r. now repeat rewrite append_assoc.
Qed.

Lemma status_code_reaches_caller_witness :
  exists message,
    fst (callToolHandler "k" (ask ping)
           (upstream
              (Ok {| Http.status := 429;
                     Http.statusText := "Too Many Requests";
                     Http.text := Ok "slow down";
                     Http.json := Ok Null |})))
    = Throw (McpError InternalError message)
    /\ contains "429" message.
Proof.
  destruct (status_code_reaches_caller "k" (ask ping)
              (upstream
                 (Ok {| Http.status := 429;
                        Http.statusText := "Too Many Requests";
                        Http.text := Ok "slow down";
                        Http.json := Ok Null |}))
              (elements ping)
              {| Http.status := 429;
                 Http.statusText := "Too Many Requests";
                 Http.text := Ok "slow down";
                 Http.json := Ok Null |}
              eq_refl eq_refl eq_refl
              (or_intror (proj1 (Nat.leb_le 300 429) eq_refl)))
    as (message & Hthrow & Hstatus & _).
  exists message. split; [exact Hthrow | exact Hstatus].
Defined.

(** Property X9.
    The outcome of [performChatCompletion] is decided by how the network
    settles the request alone: two calls, whatever their credentials,
    messages and histories, whose requests are settled alike end alike. *)
Theorem outcome_decided_by_response (key1 key2 : string)
    (messages1 messages2 : value) (w1 w2 : world) :
  network w1 (sent w1) (chat_request key1 messages1)
  = network w2 (sent w2) (chat_request key2 messages2) ->
  fst (performChatCompletion key1 messages1 w1)
  = fst (performChatCompletion key2 messages2 w2).
Proof.
  intros H.
  destruct (network w2 (sent w2) (chat_request key2 messages2))
    as [resp|e] eqn:H2.
  - destruct (Http.ok resp) eqn:Hok.
    + destruct (Http.json resp) as [data|e] eqn:Hjson.
      * now rewrite (performChatCompletion_parsed _ _ _ resp data H Hok Hjson),
          (performChatCompletion_parsed _ _ _ resp data H2 Hok Hjson).
      * now rewrite (performChatCompletion_unparsable _ _ _ resp e H Hok Hjson),
          (performChatCompletion_unparsable _ _ _ resp e H2 Hok Hjson).
    + now rewrite (performChatCompletion_refused _ _ _ resp H Hok),
        (performChatCompletion_refused _ _ _ resp H2 Hok).
  - now rewrite (performChatCompletion_unreachable _ _ _ e H),
      (performChatCompletion_unreachable _ _ _ e H2).
Qed.

Lemma outcome_decided_by_response_witness :
  fst (performChatCompletion "k" ping
         (upstream (replies 200 "OK" (answer (Str "pong") []))))
  = fst (performChatCompletion "another" (Arr [])
           (upstream (replies 200 "OK" (answer (Str "pong") [])))).
Proof.
  exact (outcome_decided_by_response "k" "another" ping (Arr [])
           (upstream (replies 200 "OK" (answer (Str "pong") [])))
           (upstream (replies 200 "OK" (answer (Str "pong") [])))
           eq_refl).
Defined.

(** ** More on the citations *)

(** Property X10.
    A [citations] value that is not a non-empty array ([null], [false], a
    number, a string, an object, an empty array, or none) adds nothing: the
    call returns the value at [choices[0].message.content] as it is. *)
Theorem other_citations_ignored (key : string) (messages : value)
    (w : world) (resp : Http.response) (data base citations : value) :
  network w (sent w) (chat_request key messages) = Ok resp ->
  Http.ok resp = true ->
  Http.json resp = Ok data ->
  message_content data = Ok base ->
  get_field data "citations" = Ok citations ->
  (forall first rest, citations <> Arr (first :: rest)) ->
  fst (performChatCompletion key messages w) = Ok base.
Proof.
  intros Hnet Hok Hjson Hcontent Hcit Hnot.
  rewrite (performChatCompletion_parsed key messages w resp data
             Hnet Hok Hjson), Hcontent, Hcit.
  destruct citations as [| | | | |[|first rest]|]; try reflexivity.
  exfalso. exact (Hnot first rest eq_refl).
Qed.

(** A single citation given as a string instead of an array. *)
Lemma other_citations_ignored_witness :
  fst (performChatCompletion "k" ping
         (upstream
            (replies 200 "OK"
               (answer (Str "pong") [("citations", Str "https://a")]))))
  = Ok (Str "pong").
Proof.
  refine (other_citations_ignored "k" ping
            (upstream
               (replies 200 "OK"
                  (answer (Str "pong") [("citations", Str "https://a")])))
            {| Http.status := 200; Http.statusText := "OK";
               Http.text := Ok "";
               Http.json :=
                 Ok (answer (Str "pong") [("citations", Str "https://a")]) |}
            (answer (Str "pong") [("citations", Str "https://a")])
            (Str "pong") (Str "https://a")
            eq_refl eq_refl eq_refl eq_refl eq_refl _).
  intros first rest H. discriminate H.
Defined.






(** Property X13.
    An empty [choices] array on a valid call: [choices[0]] is [undefined],
    the read of [message] on it throws, and the handler answers with an
    [InternalError] naming that read. *)
Theorem empty_choices_faults (key : string)
    (request : Mcp.CallToolRequest) (w : world) (items : list value)
    (resp : Http.response) (data : value) :
  Mcp.name request = "perplexity_ask" ->
  get_field (Mcp.arguments request) "messages" = Ok (Arr items) ->
  network w (sent w) (chat_request key (Arr items)) = Ok resp ->
  Http.ok resp = true ->
  Http.json resp = Ok data ->
  get_field data "choices" = Ok (Arr []) ->
  fst (callToolHandler key request w)
  = Throw (McpError InternalError
             "Error processing request: Cannot read properties of undefined (reading 'message')").
Proof.
  intros Hname Hargs Hnet Hok Hjson Hchoices.
  assert (Hthrow : fst (performChatCompletion key (Arr items) w)
            = Throw (ErrorObject "TypeError"
                       "Cannot read properties of undefined (reading 'message')")).
  { rewrite (performChatCompletion_parsed key (Arr items) w resp data
               Hnet Hok Hjson).
    unfold message_content. rewrite Hchoices. reflexivity. }
  now rewrite (callToolHandler_wraps key request w items _ _
                 Hname Hargs Hthrow).
Qed.

Lemma empty_choices_faults_witness :
  fst (callToolHandler "k" (ask ping)
         (upstream (replies 200 "OK" (Obj [("choices", Arr [])]))))
  = Throw (McpError InternalError
             "Error processing request: Cannot read properties of undefined (reading 'message')").
Proof.
  exact (empty_choices_faults "k" (ask ping)
           (upstream (replies 200 "OK" (Obj [("choices", Arr [])])))
           (elements ping)
           {| Http.status := 200; Http.statusText := "OK";
              Http.text := Ok "";
              Http.json := Ok (Obj [("choices", Arr [])]) |}
           (Obj [("choices", Arr [])])
           eq_refl eq_refl eq_refl eq_refl eq_refl eq_refl).
Defined.

(** ** Startup *)


(** Property X15.
    With a credential, evaluation reaches the end with exactly one line on
    the diagnostic stream: the startup line when [connect] resolved, the
    printed rejection when it did not; the startup line is never printed
    after a failed [connect]. *)
Theorem one_diagnostic_at_startup (key : string) (connect : result unit) :
  key <> "" ->
  exists line,
    main (Some key) connect = Evaluated [line]
    /\ (line = Message "Perplexity Ask MCP Server running on stdio"
        <-> exists u, connect = Ok u)
    /\ (forall e, connect = Throw e -> line = Printed e).
Proof.
  intros Hkey. apply String.eqb_neq in Hkey.
  unfold main. cbn [truthy]. rewrite Hkey. cbn [negb].
  destruct connect as [u|e]; cbn.
  - eexists. split; [reflexivity|]. split.
    + split; eauto.
    + intros e H. discriminate H.
  - eexists. split; [reflexivity|]. split.
    + split.
      * intros H. discriminate H.
      * intros (u & H). discriminate H.
    + intros e' H. now inversion H.
Qed.

Lemma one_diagnostic_at_startup_witness :
  exists line,
    main (Some "k") (Ok tt) = Evaluated [line]
    /\ (line = Message "Perplexity Ask MCP Server running on stdio"
        <-> exists u, Ok tt = Ok u).
Proof.
  assert (Hkey : "k" <> "") by discriminate.
  destruct (one_diagnostic_at_startup "k" (Ok tt) Hkey)
    as (line & Hmain & Hline & _).
  exists line. split; [exact Hmain | exact Hline].
Defined.

(** ** The list of tools against the dispatch *)

(** Property X16.
    The names list-tools advertises are exactly the names call-tool
    dispatches: a name is listed if and only if no call under that name is
    rejected with [MethodNotFound]. *)
Theorem listed_tools_are_the_callable_ones (w : world) (name : string) :
  (exists r,
      fst (listToolsHandler w) = Ok r /\ In name (listed_names r))
  <-> (forall key arguments w' message,
          fst (callToolHandler key
                 {| Mcp.name := name; Mcp.arguments := arguments |} w')
          <> Throw (McpError MethodNotFound message)).
Proof.
  split.
  - intros (r & Hr & Hin) key arguments w' message H.
    unfold listToolsHandler, ret in Hr. cbn [fst] in Hr.
    inversion Hr; subst r. clear Hr.
    destruct Hin as [Hname | []]. cbn in Hname.
    destruct (callToolHandler_cases key
                {| Mcp.name := name; Mcp.arguments := arguments |} w')
      as [(Hne & _) | [(_ & _ & Hcall) | (_ & items & _ & Hcase)]].
    + apply Hne. cbn [Mcp.name]. now symmetry.
    + rewrite Hcall in H. discriminate H.
    + destruct Hcase as [(result & Hcall & _) | (n & m & Hcall & _)];
        rewrite Hcall in H; discriminate H.
  - intros H.
    destruct (String.eqb_spec name "perplexity_ask") as [-> | Hne].
    + eexists. split; [reflexivity|]. left. reflexivity.
    + exfalso.
      apply (H "" Undefined w ("Unknown tool: " ++ name)).
      now rewrite (callToolHandler_unknown ""
                     {| Mcp.name := name; Mcp.arguments := Undefined |}
                     w Hne).
Qed.

(** Property X17.
    For every listed tool and every property its input schema lists under
    [required], a call to that tool whose arguments object lacks that
    property is rejected with [InvalidParams], and nothing is sent. *)
Theorem required_property_is_enforced (key : string) (w0 w : world)
    (r : Listing.ListToolsResult) (tool : Listing.Tool)
    (property : string) (fields : list (string * value)) :
  fst (listToolsHandler w0) = Ok r ->
  In tool (Listing.tools r) ->
  In (Str property) (required_properties (Listing.inputSchema tool)) ->
  lookup property fields = Undefined ->
  callToolHandler key
    {| Mcp.name := Listing.name tool; Mcp.arguments := Obj fields |} w
  = (Throw (McpError InvalidParams invalid_arguments_message), w).
Proof.
  intros Hr Htool Hrequired Hmissing.
  unfold listToolsHandler, ret in Hr. cbn [fst] in Hr.
  inversion Hr; subst r. clear Hr.
  destruct Htool as [<- | []].
  cbn [Listing.inputSchema Listing.name] in *.
  destruct Hrequired as [Hp | []]. inversion Hp; subst property.
  apply callToolHandler_invalid; [reflexivity|].
  intros items H. cbn [Mcp.arguments get_field] in H.
  rewrite Hmissing in H. discriminate H.
Qed.

(** The arguments [{prompt: "hi"}]. *)
Lemma required_property_is_enforced_witness :
  fst (callToolHandler "k"
         {| Mcp.name := "perplexity_ask";
            Mcp.arguments := Obj [("prompt", Str "hi")] |}
         (upstream (replies 200 "OK" (answer (Str "pong") []))))
  = Throw (McpError InvalidParams invalid_arguments_message).
Proof.
  refine (f_equal fst
            (required_property_is_enforced "k"
               (upstream (replies 200 "OK" Null))
               (upstream (replies 200 "OK" (answer (Str "pong") [])))
               _ _ "messages" [("prompt", Str "hi")]
               eq_refl (or_introl eq_refl) (or_introl eq_refl) eq_refl)).
Defined.
